(** * Power BI hook: refresh lifecycle of [hooks/powerbi.py]

    A shallow embedding of
    [airflow/providers/microsoft/azure/hooks/powerbi.py]: the status
    constants, the normalisation of a raw refresh record, the lookup of a
    refresh by its request id, and the operations that go through the
    request executor [KiotaRequestAdapterHook.run].

    Python values are a small inductive type of JSON-like values; an
    operation that can raise returns a [result]; the executor, which lives
    in another module, is a parameter [run] of every operation that awaits
    it (each operation awaits it exactly once). *)

From Stdlib Require Import ZArith List Ascii String DecimalString.
From stdpp Require Import base gmap strings list.

Import ListNotations.
Local Open Scope string_scope.
Set Warnings "-register-all,-clear-no-such-hyp".

(** ** Python values *)

Module Py.

(** The values a parsed JSON response is made of, and the dictionaries the
    hook builds itself. A [PDict] lists its items in insertion order; the
    keys of a dictionary are distinct, so [dict_lookup] finding the first
    binding of a key finds the only one. Floating-point numbers are left
    out. Strings are Rocq strings: text is read as ASCII. Containers are
    nested less deeply than the interpreter's recursion limit. *)
Inductive pyval : Type :=
  | PNone
  | PBool (b : bool)
  | PInt (z : Z)
  | PStr (s : string)
  | PList (items : list pyval)
  | PDict (items : list (string * pyval)).

Fixpoint dict_lookup (k : string) (items : list (string * pyval)) : option pyval :=
  match items with
  | [] => None
  | (k', v) :: rest => if String.eqb k k' then Some v else dict_lookup k rest
  end.

(** [sep.join(parts)]. *)
Fixpoint join (sep : string) (parts : list string) : string :=
  match parts with
  | [] => ""
  | [p] => p
  | p :: rest => p ++ sep ++ join sep rest
  end.

Fixpoint str_mem (c : ascii) (s : string) : bool :=
  match s with
  | EmptyString => false
  | String c' s' => if Ascii.eqb c c' then true else str_mem c s'
  end.

Definition hex_digit (n : N) : ascii :=
  if (n <? 10)%N then ascii_of_N (48 + n) else ascii_of_N (87 + n).

(** One character of [repr] of a [str] delimited by [quote]. *)
Definition repr_char (quote : ascii) (c : ascii) : string :=
  let n := N_of_ascii c in
  if Ascii.eqb c quote then String "\" (String c "")
  else if (n =? 92)%N then "\\"
  else if (n =? 9)%N then "\t"
  else if (n =? 10)%N then "\n"
  else if (n =? 13)%N then "\r"
  else if ((n <? 32) || (n =? 127))%N
       then String "\" (String "x" (String (hex_digit (n / 16)) (String (hex_digit (n mod 16)) "")))
  else String c "".

Fixpoint repr_chars (quote : ascii) (s : string) : string :=
  match s with
  | EmptyString => ""
  | String c s' => repr_char quote c ++ repr_chars quote s'
  end.

(** [repr(s)] of a [str]: single quotes, unless the text has a single quote
    and no double quote. *)
Definition repr_str (s : string) : string :=
  let double := "034"%char in
  let quote := if str_mem "'" s && negb (str_mem double s) then double else "'"%char in
  String quote (repr_chars quote s ++ String quote "").

(** [needle in s] for two [str]: substring test. *)
Fixpoint str_contains (needle s : string) : bool :=
  if String.prefix needle s then true
  else match s with
       | EmptyString => false
       | String _ s' => str_contains needle s'
       end.

(** [s == v] where [s] is a [str]. *)
Definition eq_str (s : string) (v : pyval) : bool :=
  match v with
  | PStr t => String.eqb s t
  | _ => false
  end.

Fixpoint chars (s : string) : list pyval :=
  match s with
  | EmptyString => []
  | String c s' => PStr (String c "") :: chars s'
  end.

(** *** Exceptions *)

(** The classes of [AirflowException] and below: the base class, the three
    classes this module declares, and any other subclass by name. *)
Inductive airflow_class : Type :=
  | AirflowException
  | PowerBIDatasetRefreshException
  | PowerBIWorkspaceListException
  | PowerBIDatasetListException
  | AirflowSubclass (name : string).

Inductive builtin_class : Type :=
  | AttributeError
  | TypeError
  | KeyError
  | ValueError
  | IndexError.

(** An exception in flight. [Airflow cls msg] is [cls(msg)]; [Builtin cls]
    is raised by the interpreter itself (its message text is not kept);
    [Foreign name msg] is an exception of any class outside the
    [AirflowException] hierarchy, as the executor may raise. *)
Inductive exn : Type :=
  | Airflow (cls : airflow_class) (msg : string)
  | Builtin (cls : builtin_class)
  | Foreign (name : string) (msg : string).

(** [isinstance(e, AirflowException)]. *)
Definition is_airflow_exception (e : exn) : bool :=
  match e with
  | Airflow _ _ => true
  | _ => false
  end.

Inductive result (A : Type) : Type :=
  | Ok (a : A)
  | Raise (e : exn).
Arguments Ok {A} a.
Arguments Raise {A} e.

Definition bind {A B : Type} (r : result A) (k : A -> result B) : result B :=
  match r with
  | Ok a => k a
  | Raise e => Raise e
  end.

Fixpoint mapM {A B : Type} (f : A -> result B) (l : list A) : result (list B) :=
  match l with
  | [] => Ok []
  | x :: rest =>
      bind (f x) (fun y => bind (mapM f rest) (fun ys => Ok (y :: ys)))
  end.

(** [try: body  except AirflowException: raise handler]. *)
Definition try_except_airflow {A : Type} (body : result A) (handler : exn) : result A :=
  match body with
  | Ok a => Ok a
  | Raise e => if is_airflow_exception e then Raise handler else Raise e
  end.

(** *** Text of a value *)

(** The default of [sys.int_max_str_digits]: the most decimal digits an
    [int] may have when it is converted to text. *)
Definition int_max_str_digits : Z := 4300.

(** [str(z)] of an [int]: its decimal text, and [ValueError] when the text
    would have more than [int_max_str_digits] digits. *)
Definition str_int (z : Z) : result string :=
  if (Z.abs z <? 10 ^ int_max_str_digits)%Z
  then Ok (NilZero.string_of_int (Z.to_int z))
  else Raise (Builtin ValueError).

(** [repr(v)]: the elements of a list and the values of a dict are printed
    in order, and the first that cannot be printed raises. *)
Fixpoint repr (v : pyval) : result string :=
  match v with
  | PNone => Ok "None"
  | PBool true => Ok "True"
  | PBool false => Ok "False"
  | PInt z => str_int z
  | PStr s => Ok (repr_str s)
  | PList items =>
      bind (mapM repr items) (fun parts => Ok ("[" ++ join ", " parts ++ "]"))
  | PDict items =>
      bind (mapM (fun kv => bind (repr (snd kv))
                              (fun text => Ok (repr_str (fst kv) ++ ": " ++ text)))
                 items)
           (fun parts => Ok ("{" ++ join ", " parts ++ "}"))
  end.

(** [str(v)]: a [str] is itself, everything else prints as its [repr]. *)
Definition str (v : pyval) : result string :=
  match v with
  | PStr s => Ok s
  | _ => repr v
  end.

(** *** Operations on values *)

(** [v.get(k, default)]: only a [dict] has the method. *)
Definition get_default (v : pyval) (k : string) (default : pyval) : result pyval :=
  match v with
  | PDict items =>
      match dict_lookup k items with
      | Some x => Ok x
      | None => Ok default
      end
  | _ => Raise (Builtin AttributeError)
  end.

(** [v.get(k)], the default being [None]. *)
Definition get (v : pyval) (k : string) : result pyval := get_default v k PNone.

(** [for x in v]: the elements of a list, the keys of a dict, the
    characters of a str. *)
Definition iter (v : pyval) : result (list pyval) :=
  match v with
  | PList items => Ok items
  | PDict items => Ok (List.map (fun kv => PStr (fst kv)) items)
  | PStr s => Ok (chars s)
  | _ => Raise (Builtin TypeError)
  end.

(** [k in v] for a [str] [k]. *)
Definition contains (k : string) (v : pyval) : result bool :=
  match v with
  | PDict items =>
      Ok (match dict_lookup k items with Some _ => true | None => false end)
  | PList items => Ok (existsb (eq_str k) items)
  | PStr s => Ok (str_contains k s)
  | _ => Raise (Builtin TypeError)
  end.

(** [v[k]] for a [str] [k] that the caller has found in [v] with [in]: a
    dict gives the value; a list or str cannot be indexed by a str. *)
Definition getitem (v : pyval) (k : string) : result pyval :=
  match v with
  | PDict items =>
      match dict_lookup k items with
      | Some x => Ok x
      | None => Raise (Builtin KeyError)
      end
  | _ => Raise (Builtin TypeError)
  end.

End Py.

Module PyNotations.
Notation "x <- r ;; k" := (Py.bind r (fun x => k))
  (at level 100, r at next level, right associativity).
End PyNotations.

Import Py PyNotations.

(** ** Status model *)

(** [PowerBIDatasetRefreshFields]: the [.value] of each member. *)
Module PowerBIDatasetRefreshFields.
Definition REQUEST_ID : string := "request_id".
Definition STATUS : string := "status".
Definition ERROR : string := "error".
End PowerBIDatasetRefreshFields.

Module PowerBIDatasetRefreshStatus.
Definition IN_PROGRESS : string := "In Progress".
Definition FAILED : string := "Failed".
Definition COMPLETED : string := "Completed".
Definition DISABLED : string := "Disabled".

Definition TERMINAL_STATUSES : gset string := {[ FAILED; COMPLETED ]}.
Definition FAILURE_STATUSES : gset string := {[ FAILED; DISABLED ]}.
End PowerBIDatasetRefreshStatus.

(** ** The hook *)

Module PowerBIHook.

Import PowerBIDatasetRefreshFields.

(** The keyword arguments of one call of [self.run]. [method] is [None]
    where the call site passes none (the executor's default applies);
    [data] is the request body. [response_type], which is [None] wherever
    it is passed, is left out. *)
Record request : Type := {
  url : string;
  method : option string;
  path_parameters : list (string * string);
  data : option pyval
}.

(** [raw_to_refresh_details(refresh_details)]. Each [str(... .get(...))] is
    evaluated in the order of the dict display; the status is read and
    stringified a second time where it is not ["Unknown"]. *)
Definition raw_to_refresh_details (refresh_details : pyval) : result pyval :=
  request_id <- (v <- get refresh_details "requestId" ;; str v) ;;
  status_test <- (v <- get refresh_details "status" ;; str v) ;;
  status <- (if String.eqb status_test "Unknown"
             then Ok "In Progress"
             else (v <- get refresh_details "status" ;; str v)) ;;
  error <- (v <- get refresh_details "serviceExceptionJson" ;; str v) ;;
  Ok (PDict [ (REQUEST_ID, PStr request_id);
              (STATUS, PStr status);
              (ERROR, PStr error) ]).

Definition refresh_error (refresh_id : string) : exn :=
  Airflow PowerBIDatasetRefreshException
    ("Unable to fetch the details of dataset refresh with Request Id: " ++ refresh_id).

(** [refresh_ids.index(refresh_id)]: position of the first equal element. *)
Fixpoint index (refresh_id : string) (refresh_ids : list pyval) : option nat :=
  match refresh_ids with
  | [] => None
  | x :: rest =>
      if eq_str refresh_id x then Some 0
      else match index refresh_id rest with
           | Some i => Some (S i)
           | None => None
           end
  end.

Section Executor.

(** [self.run]: what the executor answers to a request, a parsed response
    or an exception. *)
Variable run : request -> result pyval.

Definition refreshes_request (dataset_id group_id : string) : request :=
  {| url := "myorg/groups/{group_id}/datasets/{dataset_id}/refreshes";
     method := None;
     path_parameters := [("group_id", group_id); ("dataset_id", dataset_id)];
     data := None |}.

Definition get_refresh_history (dataset_id group_id : string) : result (list pyval) :=
  try_except_airflow
    (response <- run (refreshes_request dataset_id group_id) ;;
     refresh_histories <- get response "value" ;;
     items <- iter refresh_histories ;;
     mapM raw_to_refresh_details items)
    (Airflow PowerBIDatasetRefreshException "Failed to retrieve refresh history").

Definition get_refresh_details_by_refresh_id (dataset_id group_id refresh_id : string)
  : result pyval :=
  refresh_histories <- get_refresh_history dataset_id group_id ;;
  if Nat.eqb (length refresh_histories) 0 then Raise (refresh_error refresh_id)
  else
    refresh_ids <- mapM (fun refresh_history => get refresh_history REQUEST_ID)
                        refresh_histories ;;
    if negb (existsb (eq_str refresh_id) refresh_ids) then Raise (refresh_error refresh_id)
    else
      match index refresh_id refresh_ids with
      | Some i =>
          match refresh_histories !! i with
          | Some refresh_details => Ok refresh_details
          | None => Raise (Builtin IndexError)
          end
      | None => Raise (Builtin ValueError)
      end.

Definition trigger_request (dataset_id group_id : string) (request_body : option pyval)
  : request :=
  {| url := "myorg/groups/{group_id}/datasets/{dataset_id}/refreshes";
     method := Some "POST";
     path_parameters := [("group_id", group_id); ("dataset_id", dataset_id)];
     data := request_body |}.

Definition trigger_dataset_refresh (dataset_id group_id : string)
    (request_body : option pyval) : result pyval :=
  try_except_airflow
    (response <- run (trigger_request dataset_id group_id request_body) ;;
     request_id <- get response "requestid" ;;
     Ok request_id)
    (Airflow PowerBIDatasetRefreshException "Failed to trigger dataset refresh.").

(** [[x["id"] for x in xs if "id" in x]]. *)
Fixpoint ids (xs : list pyval) : result (list pyval) :=
  match xs with
  | [] => Ok []
  | x :: rest =>
      has_id <- contains "id" x ;;
      if (has_id : bool)
      then (v <- getitem x "id" ;; vs <- ids rest ;; Ok (v :: vs))
      else ids rest
  end.

Definition workspaces_request : request :=
  {| url := "myorg/groups"; method := Some "GET"; path_parameters := []; data := None |}.

Definition get_workspace_list : result (list pyval) :=
  try_except_airflow
    (response <- run workspaces_request ;;
     list_of_workspaces <- get_default response "value" (PList []) ;;
     items <- iter list_of_workspaces ;;
     ids items)
    (Airflow PowerBIWorkspaceListException "Failed to get workspace ID list.").

Definition datasets_request (group_id : string) : request :=
  {| url := "myorg/groups/" ++ group_id ++ "/datasets";
     method := Some "GET"; path_parameters := []; data := None |}.

Definition get_dataset_list (group_id : string) : result (list pyval) :=
  try_except_airflow
    (response <- run (datasets_request group_id) ;;
     list_of_datasets <- get_default response "value" (PList []) ;;
     items <- iter list_of_datasets ;;
     ids items)
    (Airflow PowerBIDatasetListException "Failed to get dataset ID list.").

Definition cancel_request (dataset_id group_id dataset_refresh_id : string) : request :=
  {| url := "myorg/groups/{group_id}/datasets/{dataset_id}/refreshes/{dataset_refresh_id}";
     method := Some "DELETE";
     path_parameters := [("group_id", group_id); ("dataset_id", dataset_id);
                         ("dataset_refresh_id", dataset_refresh_id)];
     data := None |}.

Definition cancel_dataset_refresh (dataset_id group_id dataset_refresh_id : string)
  : result unit :=
  _ <- run (cancel_request dataset_id group_id dataset_refresh_id) ;;
  Ok tt.

End Executor.

End PowerBIHook.

(** ** Properties *)

Import PowerBIDatasetRefreshFields PowerBIDatasetRefreshStatus PowerBIHook.

(** The four status constants of [PowerBIDatasetRefreshStatus]. *)
Definition enumerated_statuses : gset string :=
  {[ IN_PROGRESS; FAILED; COMPLETED; DISABLED ]}.

(** The stringified value of [key] in a dict with the items [raw]: [str]
    of the value, the text ["None"] when the key is absent. *)
Definition field_str (raw : list (string * pyval)) (key : string) : result string :=
  match dict_lookup key raw with
  | Some v => str v
  | None => Ok "None"
  end.

(** The text [field_str] returns (the empty text where it raises). *)
Definition field_text (raw : list (string * pyval)) (key : string) : string :=
  match field_str raw key with
  | Ok s => s
  | Raise _ => ""
  end.

(** [str] returns for the values of the three keys of a raw record. *)
Definition stringifies (raw : list (string * pyval)) : bool :=
  match field_str raw "requestId", field_str raw "status",
        field_str raw "serviceExceptionJson" with
  | Ok _, Ok _, Ok _ => true
  | _, _, _ => false
  end.

(** A dictionary as [raw_to_refresh_details] builds it. *)
Definition refresh_record (request_id status error : string) : pyval :=
  PDict [ (REQUEST_ID, PStr request_id); (STATUS, PStr status); (ERROR, PStr error) ].

(** [isinstance(v, dict)]. *)
Definition is_mapping (v : pyval) : bool :=
  match v with
  | PDict _ => true
  | _ => false
  end.

(** [None], a [bool] or an [int]: a value that is neither iterable nor a
    container. *)
Definition is_scalar (v : pyval) : bool :=
  match v with
  | PNone | PBool _ | PInt _ => true
  | _ => false
  end.

(** The record [raw_to_refresh_details] makes of a dict with the items
    [raw] when [stringifies raw]. *)
Definition normalized (raw : list (string * pyval)) : pyval :=
  refresh_record (field_text raw "requestId")
    (if String.eqb (field_text raw "status") "Unknown"
     then "In Progress" else field_text raw "status")
    (field_text raw "serviceExceptionJson").

(** The first raw record whose stringified ["requestId"] is [refresh_id]. *)
Definition find_refresh (refresh_id : string) (raws : list (list (string * pyval)))
  : option (list (string * pyval)) :=
  List.find (fun raw => String.eqb refresh_id (field_text raw "requestId")) raws.

(** [refresh_id] names no record of the history: the history is empty or
    no record has that request id. *)
Definition absent_from (refresh_id : string) (history : list pyval) : Prop :=
  history = [] \/
  forall r, r ∈ history -> get r "request_id" <> Ok (PStr refresh_id).

(** Executors to run the operations on: one that answers every request
    with the same response, one that fails every request with the same
    exception. *)
Definition answering (response : pyval) : request -> result pyval :=
  fun _ => Ok response.

Definition failing (e : exn) : request -> result pyval :=
  fun _ => Raise e.

(** A refresh history in which the request id ["b"] occurs twice. *)
Definition sample_refreshes : pyval :=
  PDict [("value", PList [
    PDict [("requestId", PStr "a"); ("status", PStr "Completed")];
    PDict [("requestId", PStr "b"); ("status", PStr "Unknown");
           ("serviceExceptionJson", PNone)];
    PDict [("requestId", PStr "b"); ("status", PStr "Failed");
           ("serviceExceptionJson", PStr "{}")] ])].

(** The raw records of [sample_refreshes]. *)
Definition sample_raws : list (list (string * pyval)) :=
  [ [("requestId", PStr "a"); ("status", PStr "Completed")];
    [("requestId", PStr "b"); ("status", PStr "Unknown");
     ("serviceExceptionJson", PNone)];
    [("requestId", PStr "b"); ("status", PStr "Failed");
     ("serviceExceptionJson", PStr "{}")] ].

(** A raw record whose request id is an int and whose error is a dict. *)
Definition sample_raw : list (string * pyval) :=
  [ ("requestId", PInt 42); ("status", PStr "unknown");
    ("serviceExceptionJson",
     PDict [("errorCode", PStr "ModelRefresh"); ("retries", PList [PInt (-1); PNone])]) ].

(** A listing in which the second element has no ["id"]. *)
Definition sample_listing : list (list (string * pyval)) :=
  [ [("id", PStr "w1"); ("name", PStr "Sales")];
    [("name", PStr "Orphan")];
    [("id", PStr "w2")] ].

Lemma get_field_text raw key : get (PDict raw) key = Ok (match dict_lookup key raw with
                                                          | Some v => v
                                                          | None => PNone
                                                          end).
Proof. unfold get, get_default. by destruct (dict_lookup key raw). Qed.

Lemma str_get_field_str raw key :
  (v <- get (PDict raw) key ;; str v) = field_str raw key.
Proof.
  rewrite get_field_text. cbn [bind]. unfold field_str.
  by destruct (dict_lookup key raw).
Qed.

(** [raw_to_refresh_details] on a dict, as three stringifications in a
    row. *)
Lemma raw_to_refresh_details_bind raw :
  raw_to_refresh_details (PDict raw)
  = (request_id <- field_str raw "requestId" ;;
     status <- field_str raw "status" ;;
     error <- field_str raw "serviceExceptionJson" ;;
     Ok (refresh_record request_id
           (if String.eqb status "Unknown" then "In Progress" else status) error)).
Proof.
  unfold raw_to_refresh_details. rewrite !str_get_field_str.
  destruct (field_str raw "requestId") as [rid |]; cbn [bind]; [| done].
  destruct (field_str raw "status") as [st |]; cbn [bind]; [| done].
  by destruct (String.eqb st "Unknown").
Qed.

Lemma raw_to_refresh_details_dict raw :
  stringifies raw = true ->
  raw_to_refresh_details (PDict raw) = Ok (normalized raw).
Proof.
  rewrite raw_to_refresh_details_bind. unfold stringifies, normalized, field_text.
  destruct (field_str raw "requestId"); [| done].
  destruct (field_str raw "status"); [| done].
  by destruct (field_str raw "serviceExceptionJson").
Qed.

Lemma raw_to_refresh_details_record v r :
  raw_to_refresh_details v = Ok r ->
  exists i s e, r = refresh_record i s e /\ s <> "Unknown".
Proof.
  destruct v as [| | | | | raw]; try discriminate.
  rewrite raw_to_refresh_details_bind.
  destruct (field_str raw "requestId") as [rid |]; cbn [bind]; [| done].
  destruct (field_str raw "status") as [st |]; cbn [bind]; [| done].
  destruct (field_str raw "serviceExceptionJson") as [er |]; cbn [bind]; [| done].
  intros [= <-]. do 3 eexists. split; [reflexivity |].
  destruct (String.eqb_spec st "Unknown"); [discriminate | done].
Qed.

Lemma raw_to_refresh_details_not_mapping v :
  is_mapping v = false -> raw_to_refresh_details v = Raise (Builtin AttributeError).
Proof. by destruct v. Qed.

(** The outcome of [try ... except AirflowException]. *)
Lemma try_except_airflow_Ok {A : Type} (body : result A) (handler : exn) (a : A) :
  try_except_airflow body handler = Ok a -> body = Ok a.
Proof.
  destruct body as [a' | e]; cbn; [done |].
  by destruct (is_airflow_exception e).
Qed.

Lemma try_except_airflow_Raise {A : Type} (body : result A) (handler e : exn) :
  try_except_airflow body handler = Raise e ->
  e = handler \/ is_airflow_exception e = false.
Proof.
  destruct body as [a | e']; cbn; [done |].
  destruct (is_airflow_exception e') eqn:He'; intros [= <-]; auto.
Qed.

Lemma mapM_Ok_Forall2 {A B : Type} (f : A -> result B) (l : list A) (ys : list B) :
  mapM f l = Ok ys <-> Forall2 (fun x y => f x = Ok y) l ys.
Proof.
  revert ys. induction l as [| x l IH]; intros ys; cbn.
  - split; [intros [= <-]; constructor | by inversion 1].
  - destruct (f x) as [y | e] eqn:Hfx; cbn.
    + destruct (mapM f l) as [ys' | e] eqn:Hl; cbn.
      * split.
        -- intros [= <-]. constructor; [done | by apply IH].
        -- inversion 1 as [| ? y' ? ys'' Hy Hys]; subst.
           apply IH in Hys. congruence.
      * split; [done |].
        inversion 1 as [| ? y' ? ys'' Hy Hys]; subst.
        apply IH in Hys. congruence.
    + split; [done |]. inversion 1; congruence.
Qed.

Lemma eq_str_true (s : string) (v : pyval) : eq_str s v = true <-> v = PStr s.
Proof.
  destruct v; cbn; try (split; [done | discriminate]).
  rewrite String.eqb_eq. split; [by intros -> | by intros [= ->]].
Qed.

Lemma str_int_oversized (z : Z) :
  (10 ^ int_max_str_digits <= Z.abs z)%Z -> str_int z = Raise (Builtin ValueError).
Proof.
  intros Hz. unfold str_int.
  by destruct (Z.ltb_spec (Z.abs z) (10 ^ int_max_str_digits)); [lia |].
Qed.

(** C1 (as stated, refuted): [str] of an [int] of more than 4300 digits
    raises [ValueError], so a mapping that binds ["requestId"] to such an
    int is not normalised. *)
Lemma oversized_request_id_raises :
  raw_to_refresh_details (PDict [("requestId", PInt (10 ^ 4300))])
  = Raise (Builtin ValueError).
Proof.
  rewrite raw_to_refresh_details_bind.
  change (field_str [("requestId", PInt (10 ^ 4300))] "requestId")
    with (str_int (10 ^ 4300)).
  rewrite str_int_oversized; [reflexivity |].
  unfold int_max_str_digits. rewrite Z.abs_eq; [reflexivity |].
  apply Z.pow_nonneg. done.
Qed.

(** C1 (amended): for every mapping whose values of ["requestId"],
    ["status"] and ["serviceExceptionJson"] stringify, the stringified
    value of an absent key being ["None"], [raw_to_refresh_details] returns
    the record whose [request_id] and [error] are the stringified values
    of the first and the third and whose [status] is ["In Progress"] when
    the raw status stringifies to ["Unknown"] and that string itself
    otherwise. *)
Theorem raw_to_refresh_details_fields
    (raw : list (string * pyval)) (request_id raw_status error : string) :
  match dict_lookup "requestId" raw with
  | Some v => str v | None => Ok "None" end = Ok request_id ->
  match dict_lookup "status" raw with
  | Some v => str v | None => Ok "None" end = Ok raw_status ->
  match dict_lookup "serviceExceptionJson" raw with
  | Some v => str v | None => Ok "None" end = Ok error ->
  exists status : string,
    raw_to_refresh_details (PDict raw)
    = Ok (PDict [("request_id", PStr request_id); ("status", PStr status);
                 ("error", PStr error)])
    /\ (raw_status = "Unknown" -> status = "In Progress")
    /\ (raw_status <> "Unknown" -> status = raw_status)
    /\ (dict_lookup "requestId" raw = None -> request_id = "None")
    /\ (dict_lookup "status" raw = None -> status = "None")
    /\ (dict_lookup "serviceExceptionJson" raw = None -> error = "None").
Proof.
  intros Hid Hst Her. rewrite raw_to_refresh_details_bind. unfold field_str.
  rewrite Hid, Hst, Her. cbn [bind]. eexists. split; [reflexivity |].
  split_and!.
  - intros ->. reflexivity.
  - intros Hne%String.eqb_neq. by rewrite Hne.
  - intros Hnone. rewrite Hnone in Hid. congruence.
  - intros Hnone. rewrite Hnone in Hst. by injection Hst as <-.
  - intros Hnone. rewrite Hnone in Her. congruence.
Qed.

Lemma raw_to_refresh_details_fields_witness :
  raw_to_refresh_details (PDict sample_raw)
  = Ok (PDict [("request_id", PStr "42"); ("status", PStr "unknown");
               ("error", PStr "{'errorCode': 'ModelRefresh', 'retries': [-1, None]}")]).
Proof.
  destruct (raw_to_refresh_details_fields sample_raw
              "42" "unknown" "{'errorCode': 'ModelRefresh', 'retries': [-1, None]}")
    as (status & Hrecord & _ & Hverbatim & _);
    [reflexivity | reflexivity | reflexivity |].
  rewrite Hrecord, Hverbatim; [reflexivity | discriminate].
Defined.

(** C2 (as stated, refuted): a raw status outside the enumeration, here
    ["Cancelled"], reaches the caller unchanged. *)
Lemma unlisted_status_leaks :
  raw_to_refresh_details
    (PDict [("requestId", PStr "r1"); ("status", PStr "Cancelled");
            ("serviceExceptionJson", PNone)])
  = Ok (PDict [("request_id", PStr "r1"); ("status", PStr "Cancelled");
               ("error", PStr "None")])
  /\ "Cancelled" ∉ enumerated_statuses.
Proof.
  split; [reflexivity |].
  unfold enumerated_statuses, IN_PROGRESS, FAILED, COMPLETED, DISABLED.
  set_solver.
Qed.

(** C2 (amended): for a raw record whose three values stringify, the
    status after normalisation is ["In Progress"] when the raw status
    stringifies to ["Unknown"] and the raw string verbatim otherwise; it
    is never ["Unknown"], and it is one of the four enumerated values
    exactly when the raw status stringifies to one of them or to
    ["Unknown"]. *)
Theorem normalized_status_enumerated
    (raw : list (string * pyval)) (request_id raw_status error : string) :
  field_str raw "requestId" = Ok request_id ->
  field_str raw "status" = Ok raw_status ->
  field_str raw "serviceExceptionJson" = Ok error ->
  exists status : string,
    raw_to_refresh_details (PDict raw)
    = Ok (PDict [("request_id", PStr request_id); ("status", PStr status);
                 ("error", PStr error)])
    /\ (raw_status = "Unknown" -> status = "In Progress")
    /\ (raw_status <> "Unknown" -> status = raw_status)
    /\ status <> "Unknown"
    /\ (status ∈ enumerated_statuses
        <-> raw_status ∈ enumerated_statuses ∪ {[ "Unknown" ]}).
Proof.
  intros Hid Hst Her. rewrite raw_to_refresh_details_bind.
  rewrite Hid, Hst, Her. cbn [bind]. eexists. split; [reflexivity |].
  unfold enumerated_statuses, IN_PROGRESS, FAILED, COMPLETED, DISABLED.
  destruct (String.eqb_spec raw_status "Unknown") as [-> | Hne].
  - split_and!; [done | done | discriminate | set_solver].
  - split_and!; [done | done | exact Hne | set_solver].
Qed.

Lemma normalized_status_enumerated_witness :
  raw_to_refresh_details (PDict [("requestId", PStr "r1"); ("status", PStr "Cancelled")])
  = Ok (PDict [("request_id", PStr "r1"); ("status", PStr "Cancelled");
               ("error", PStr "None")]).
Proof.
  destruct (normalized_status_enumerated
              [("requestId", PStr "r1"); ("status", PStr "Cancelled")]
              "r1" "Cancelled" "None")
    as (status & Hrecord & _ & Hverbatim & _);
    [reflexivity | reflexivity | reflexivity |].
  rewrite Hrecord, Hverbatim; [reflexivity | discriminate].
Defined.

(** C5: [FAILURE_STATUSES] is [{Failed, Disabled}], [TERMINAL_STATUSES] is
    [{Failed, Completed}]; [Disabled] is in the first and not in the
    second. *)
Theorem status_sets :
  FAILURE_STATUSES = {[ "Failed"; "Disabled" ]}
  /\ TERMINAL_STATUSES = {[ "Failed"; "Completed" ]}
  /\ "Disabled" ∈ FAILURE_STATUSES
  /\ "Disabled" ∉ TERMINAL_STATUSES.
Proof.
  unfold FAILURE_STATUSES, TERMINAL_STATUSES, FAILED, COMPLETED, DISABLED.
  split_and!; [reflexivity | reflexivity | set_solver | set_solver].
Qed.

(** ** Looking a refresh up in the history *)

Section History.

Variable run : request -> result pyval.

Lemma get_refresh_history_records d g history :
  get_refresh_history run d g = Ok history ->
  Forall (fun r => exists i s e, r = refresh_record i s e) history.
Proof.
  unfold get_refresh_history. intros H%try_except_airflow_Ok.
  destruct (run _) as [response | ?]; [cbn in H | done].
  destruct (get response "value") as [histories | ?]; [cbn in H | done].
  destruct (iter histories) as [items | ?]; [cbn in H | done].
  apply mapM_Ok_Forall2 in H.
  induction H as [| x y xs ys Hxy _ IH]; constructor; [| exact IH].
  apply raw_to_refresh_details_record in Hxy as (i & s & e & -> & _). eauto.
Qed.

Lemma request_ids_of_records (history : list pyval) :
  Forall (fun r => exists i s e, r = refresh_record i s e) history ->
  exists refresh_ids,
    Forall2 (fun r v => get r REQUEST_ID = Ok v) history refresh_ids.
Proof.
  induction 1 as [| r rs (i & s & e & ->) _ [ids IH]].
  - exists []. constructor.
  - exists (PStr i :: ids). by constructor.
Qed.

Lemma get_refresh_history_Raise d g rid e :
  get_refresh_history run d g = Raise e -> e <> refresh_error rid.
Proof.
  unfold get_refresh_history.
  intros [-> | He]%try_except_airflow_Raise; [discriminate |].
  intros ->. discriminate.
Qed.

(** The body of [get_refresh_details_by_refresh_id] once the history and
    the list of its request ids are known. *)
Lemma get_refresh_details_unfold d g rid history refresh_ids :
  get_refresh_history run d g = Ok history ->
  Forall2 (fun r v => get r REQUEST_ID = Ok v) history refresh_ids ->
  get_refresh_details_by_refresh_id run d g rid
  = match history with
    | [] => Raise (refresh_error rid)
    | _ :: _ =>
        match index rid refresh_ids with
        | Some i =>
            match history !! i with
            | Some r => Ok r
            | None => Raise (Builtin IndexError)
            end
        | None => Raise (refresh_error rid)
        end
    end.
Proof.
  intros Hh Hids. unfold get_refresh_details_by_refresh_id. rewrite Hh. cbn [bind].
  destruct history as [| r0 rest]; [reflexivity |].
  cbn [length Nat.eqb].
  apply mapM_Ok_Forall2 in Hids. rewrite Hids. cbn [bind].
  assert (Hex : existsb (eq_str rid) refresh_ids
                = match index rid refresh_ids with Some _ => true | None => false end).
  { clear. induction refresh_ids as [| v vs IH]; cbn; [done |].
    destruct (eq_str rid v); cbn; [done |]. rewrite IH.
    by destruct (index rid vs). }
  rewrite Hex. by destruct (index rid refresh_ids).
Qed.

Lemma index_None history refresh_ids rid :
  Forall2 (fun r v => get r REQUEST_ID = Ok v) history refresh_ids ->
  index rid refresh_ids = None ->
  forall r, r ∈ history -> get r REQUEST_ID <> Ok (PStr rid).
Proof.
  induction 1 as [| r v rs vs Hrv _ IH]; cbn; intros Hidx r' Hin.
  - by apply elem_of_nil in Hin.
  - destruct (eq_str rid v) eqn:Hv; [done |].
    destruct (index rid vs); [done |].
    apply elem_of_cons in Hin as [-> | Hin]; [| by apply IH].
    rewrite Hrv. intros [= ->]. by rewrite (proj2 (eq_str_true rid _)) in Hv.
Qed.

Lemma index_Some history refresh_ids rid i :
  Forall2 (fun r v => get r REQUEST_ID = Ok v) history refresh_ids ->
  index rid refresh_ids = Some i ->
  exists r, history !! i = Some r /\ get r REQUEST_ID = Ok (PStr rid).
Proof.
  intros H. revert i. induction H as [| r v rs vs Hrv _ IH]; cbn; intros i Hidx.
  - done.
  - destruct (eq_str rid v) eqn:Hv.
    + injection Hidx as <-. apply eq_str_true in Hv as ->. eauto.
    + destruct (index rid vs) as [j |]; [| done].
      injection Hidx as <-. by apply IH.
Qed.

Lemma index_first pre r post refresh_ids rid :
  Forall2 (fun r v => get r REQUEST_ID = Ok v) (pre ++ r :: post) refresh_ids ->
  get r REQUEST_ID = Ok (PStr rid) ->
  (forall r', r' ∈ pre -> get r' REQUEST_ID <> Ok (PStr rid)) ->
  index rid refresh_ids = Some (length pre).
Proof.
  revert refresh_ids. induction pre as [| p pre IH]; cbn; intros ids Hids Hr Hpre.
  - inversion Hids as [| ? v ? vs Hv _]; subst. cbn.
    rewrite Hr in Hv. injection Hv as <-.
    by rewrite (proj2 (eq_str_true rid _)).
  - inversion Hids as [| ? v ? vs Hv Hrest]; subst. cbn.
    destruct (eq_str rid v) eqn:Hrid.
    + apply eq_str_true in Hrid as ->.
      exfalso. apply (Hpre p); [by left | done].
    + rewrite (IH vs); [done | done | done |].
      intros r' Hin. apply Hpre. by right.
Qed.

End History.

(** C3: with the history fetched, [get_refresh_details_by_refresh_id]
    raises [PowerBIDatasetRefreshException] with the message naming
    [refresh_id] exactly when the history is empty or no record has that
    request id; otherwise it returns a record of the history whose request
    id is [refresh_id]. *)
Theorem get_refresh_details_by_refresh_id_found_or_raises
    (run : request -> result pyval) (dataset_id group_id refresh_id : string)
    (history : list pyval) :
  get_refresh_history run dataset_id group_id = Ok history ->
  (get_refresh_details_by_refresh_id run dataset_id group_id refresh_id
   = Raise (Airflow PowerBIDatasetRefreshException
              ("Unable to fetch the details of dataset refresh with Request Id: "
               ++ refresh_id))
   <-> absent_from refresh_id history)
  /\ (~ absent_from refresh_id history ->
      exists r,
        get_refresh_details_by_refresh_id run dataset_id group_id refresh_id = Ok r
        /\ r ∈ history
        /\ get r "request_id" = Ok (PStr refresh_id)).
Proof.
  intros Hh.
  destruct (request_ids_of_records _ (get_refresh_history_records run _ _ _ Hh))
    as [ids Hids].
  rewrite (get_refresh_details_unfold run _ _ refresh_id _ _ Hh Hids).
  fold (refresh_error refresh_id).
  destruct history as [| r0 rest].
  { split; [split; [by left | done] |]. intros Hne. exfalso. apply Hne. by left. }
  destruct (index refresh_id ids) as [i |] eqn:Hidx.
  - destruct (index_Some _ _ _ _ Hids Hidx) as (r & Hr & Hid).
    rewrite Hr. split.
    + split; [done |]. intros [Hnil | Hnone]; [done |].
      exfalso. apply (Hnone r); [| done]. by eapply list_elem_of_lookup_2.
    + intros _. exists r. split_and!; [done | | done].
      by eapply list_elem_of_lookup_2.
  - pose proof (index_None _ _ _ Hids Hidx) as Hnone. split.
    + split; [intros _; by right | done].
    + intros Hne. exfalso. apply Hne. by right.
Qed.

Lemma get_refresh_details_by_refresh_id_found_or_raises_witness :
  get_refresh_details_by_refresh_id (answering sample_refreshes) "ds" "ws" "zz"
  = Raise (Airflow PowerBIDatasetRefreshException
             "Unable to fetch the details of dataset refresh with Request Id: zz").
Proof.
  apply (get_refresh_details_by_refresh_id_found_or_raises
           (answering sample_refreshes) "ds" "ws" "zz"
           [refresh_record "a" "Completed" "None";
            refresh_record "b" "In Progress" "None";
            refresh_record "b" "Failed" "{}"]).
  - reflexivity.
  - right. intros r Hr.
    apply elem_of_cons in Hr as [-> | Hr]; [discriminate |].
    apply elem_of_cons in Hr as [-> | Hr]; [discriminate |].
    apply elem_of_cons in Hr as [-> | Hr]; [discriminate |].
    apply elem_of_nil in Hr. destruct Hr.
Defined.

(** C9: when several records of the history have the request id
    [refresh_id], [get_refresh_details_by_refresh_id] returns the first of
    them in history order. *)
Theorem get_refresh_details_by_refresh_id_first
    (run : request -> result pyval) (dataset_id group_id refresh_id : string)
    (before : list pyval) (r : pyval) (after : list pyval) :
  get_refresh_history run dataset_id group_id = Ok (before ++ r :: after)%list ->
  get r "request_id" = Ok (PStr refresh_id) ->
  (forall r', r' ∈ before -> get r' "request_id" <> Ok (PStr refresh_id)) ->
  get_refresh_details_by_refresh_id run dataset_id group_id refresh_id = Ok r.
Proof.
  intros Hh Hr Hbefore.
  destruct (request_ids_of_records _ (get_refresh_history_records run _ _ _ Hh))
    as [ids Hids].
  rewrite (get_refresh_details_unfold run _ _ refresh_id _ _ Hh Hids).
  rewrite (index_first _ _ _ _ _ Hids Hr Hbefore).
  rewrite list_lookup_middle by done.
  by destruct before.
Qed.

Lemma get_refresh_details_by_refresh_id_first_witness :
  get_refresh_details_by_refresh_id (answering sample_refreshes) "ds" "ws" "b"
  = Ok (PDict [("request_id", PStr "b"); ("status", PStr "In Progress");
               ("error", PStr "None")]).
Proof.
  apply (get_refresh_details_by_refresh_id_first
           (answering sample_refreshes) "ds" "ws" "b"
           [refresh_record "a" "Completed" "None"]
           (refresh_record "b" "In Progress" "None")
           [refresh_record "b" "Failed" "{}"]).
  - reflexivity.
  - reflexivity.
  - intros r' Hr'.
    apply elem_of_cons in Hr' as [-> | Hr']; [discriminate |].
    apply elem_of_nil in Hr'. destruct Hr'.
Defined.

(** ** Errors of the executor *)

(** C4 (as stated, refuted): an executor error outside the
    [AirflowException] hierarchy leaves both operations as it is, not as a
    [PowerBIDatasetRefreshException]. *)
Lemma foreign_executor_error_escapes :
  let e := Foreign "httpx.ConnectError" "All connection attempts failed" in
  get_refresh_history (failing e) "ds" "ws" = Raise e
  /\ get_refresh_history (failing e) "ds" "ws"
     <> Raise (Airflow PowerBIDatasetRefreshException "Failed to retrieve refresh history")
  /\ trigger_dataset_refresh (failing e) "ds" "ws" None = Raise e
  /\ trigger_dataset_refresh (failing e) "ds" "ws" None
     <> Raise (Airflow PowerBIDatasetRefreshException "Failed to trigger dataset refresh.").
Proof. cbn. split_and!; [reflexivity | discriminate | reflexivity | discriminate]. Qed.

(** C4 (amended): an executor error is re-raised by [get_refresh_history]
    and [trigger_dataset_refresh] as [PowerBIDatasetRefreshException] with
    the operation's fixed message, whatever its own message was, when it is
    an [AirflowException]; an error of any other class propagates
    unchanged. *)
Theorem executor_error_translation
    (run : request -> result pyval) (dataset_id group_id : string)
    (request_body : option pyval) (e : exn) :
  (run (refreshes_request dataset_id group_id) = Raise e ->
   get_refresh_history run dataset_id group_id
   = Raise (if is_airflow_exception e
            then Airflow PowerBIDatasetRefreshException "Failed to retrieve refresh history"
            else e))
  /\ (run (trigger_request dataset_id group_id request_body) = Raise e ->
      trigger_dataset_refresh run dataset_id group_id request_body
      = Raise (if is_airflow_exception e
               then Airflow PowerBIDatasetRefreshException "Failed to trigger dataset refresh."
               else e)).
Proof.
  unfold get_refresh_history, trigger_dataset_refresh.
  split; intros ->; cbn; by destruct (is_airflow_exception e).
Qed.

Lemma executor_error_translation_witness :
  get_refresh_history
    (failing (Airflow (AirflowSubclass "AirflowBadRequest") "400 Bad Request")) "ds" "ws"
  = Raise (Airflow PowerBIDatasetRefreshException "Failed to retrieve refresh history")
  /\ trigger_dataset_refresh
       (failing (Airflow (AirflowSubclass "AirflowBadRequest") "400 Bad Request"))
       "ds" "ws" None
     = Raise (Airflow PowerBIDatasetRefreshException "Failed to trigger dataset refresh.").
Proof.
  destruct (executor_error_translation
              (failing (Airflow (AirflowSubclass "AirflowBadRequest") "400 Bad Request"))
              "ds" "ws" None
              (Airflow (AirflowSubclass "AirflowBadRequest") "400 Bad Request"))
    as [Hhistory Htrigger].
  split; [apply Hhistory | apply Htrigger]; reflexivity.
Defined.

(** C8: [cancel_dataset_refresh] hands an executor error on as it is, of
    whatever class. *)
Theorem cancel_dataset_refresh_propagates
    (run : request -> result pyval)
    (dataset_id group_id dataset_refresh_id : string) (e : exn) :
  run (cancel_request dataset_id group_id dataset_refresh_id) = Raise e ->
  cancel_dataset_refresh run dataset_id group_id dataset_refresh_id = Raise e.
Proof. intros H. unfold cancel_dataset_refresh. by rewrite H. Qed.

Lemma cancel_dataset_refresh_propagates_witness :
  cancel_dataset_refresh (failing (Airflow AirflowException "404 Not Found")) "ds" "ws" "r1"
  = Raise (Airflow AirflowException "404 Not Found").
Proof.
  apply (cancel_dataset_refresh_propagates
           (failing (Airflow AirflowException "404 Not Found")) "ds" "ws" "r1").
  reflexivity.
Defined.

(** ** Responses of the executor *)

(** C6: when the executor answers the trigger request with a mapping that
    binds ["requestid"], [trigger_dataset_refresh] returns the bound
    value. *)
Theorem trigger_dataset_refresh_request_id
    (run : request -> result pyval) (dataset_id group_id : string)
    (request_body : option pyval) (response : list (string * pyval)) (id : pyval) :
  run (trigger_request dataset_id group_id request_body) = Ok (PDict response) ->
  dict_lookup "requestid" response = Some id ->
  trigger_dataset_refresh run dataset_id group_id request_body = Ok id.
Proof.
  intros Hrun Hid. unfold trigger_dataset_refresh, get, get_default.
  rewrite Hrun. cbn. by rewrite Hid.
Qed.

Lemma trigger_dataset_refresh_request_id_witness :
  trigger_dataset_refresh (answering (PDict [("requestid", PStr "abc123")])) "ds" "ws" None
  = Ok (PStr "abc123").
Proof.
  apply (trigger_dataset_refresh_request_id
           (answering (PDict [("requestid", PStr "abc123")])) "ds" "ws" None
           [("requestid", PStr "abc123")]);
    reflexivity.
Defined.

Lemma ids_of_dicts (elements : list (list (string * pyval))) :
  ids (List.map PDict elements) = Ok (omap (dict_lookup "id") elements).
Proof.
  induction elements as [| d ds IH]; cbn; [reflexivity |].
  destruct (dict_lookup "id" d) as [v |]; cbn; by rewrite IH.
Qed.

(** C7 (as stated, refuted): an element of the response list that is not
    a mapping, here [None], is not left out: both listings raise
    [TypeError]. *)
Lemma listing_element_not_left_out :
  get_workspace_list
    (answering (PDict [("value", PList [PDict [("id", PStr "w1")]; PNone;
                                         PDict [("id", PStr "w2")]])]))
  = Raise (Builtin TypeError)
  /\ get_dataset_list
       (answering (PDict [("value", PList [PDict [("id", PStr "w1")]; PNone;
                                            PDict [("id", PStr "w2")]])])) "ws"
     = Raise (Builtin TypeError).
Proof. split; reflexivity. Qed.

(** C7 (amended): when the response lists mappings under ["value"],
    [get_workspace_list] and [get_dataset_list] return the ["id"] values of
    those that have the key, in the order of the response; the others are
    left out and nothing is raised. *)
Theorem id_lists_keep_ids_in_order
    (run : request -> result pyval) (group_id : string)
    (response : list (string * pyval)) (elements : list (list (string * pyval))) :
  dict_lookup "value" response = Some (PList (List.map PDict elements)) ->
  (run workspaces_request = Ok (PDict response) ->
   get_workspace_list run = Ok (omap (dict_lookup "id") elements))
  /\ (run (datasets_request group_id) = Ok (PDict response) ->
      get_dataset_list run group_id = Ok (omap (dict_lookup "id") elements)).
Proof.
  intros Hvalue. unfold get_workspace_list, get_dataset_list, get_default.
  split; intros ->; cbn; rewrite Hvalue; cbn; by rewrite ids_of_dicts.
Qed.

Lemma id_lists_keep_ids_in_order_witness :
  get_workspace_list (answering (PDict [("value", PList (List.map PDict sample_listing))]))
  = Ok [PStr "w1"; PStr "w2"]
  /\ get_dataset_list (answering (PDict [("value", PList (List.map PDict sample_listing))])) "ws"
     = Ok [PStr "w1"; PStr "w2"].
Proof.
  destruct (id_lists_keep_ids_in_order
              (answering (PDict [("value", PList (List.map PDict sample_listing))])) "ws"
              [("value", PList (List.map PDict sample_listing))] sample_listing)
    as [Hworkspaces Hdatasets]; [reflexivity |].
  split; [apply Hworkspaces | apply Hdatasets]; reflexivity.
Defined.

(** C10: when the response mapping has no ["value"] key,
    [get_workspace_list] and [get_dataset_list] return the empty list. *)
Theorem id_lists_without_value
    (run : request -> result pyval) (group_id : string)
    (response : list (string * pyval)) :
  dict_lookup "value" response = None ->
  (run workspaces_request = Ok (PDict response) -> get_workspace_list run = Ok [])
  /\ (run (datasets_request group_id) = Ok (PDict response) ->
      get_dataset_list run group_id = Ok []).
Proof.
  intros Hvalue. unfold get_workspace_list, get_dataset_list, get_default.
  split; intros ->; cbn; by rewrite Hvalue.
Qed.

Lemma id_lists_without_value_witness :
  get_workspace_list (answering (PDict [("@odata.count", PInt 0)])) = Ok []
  /\ get_dataset_list (answering (PDict [("@odata.count", PInt 0)])) "ws" = Ok [].
Proof.
  destruct (id_lists_without_value
              (answering (PDict [("@odata.count", PInt 0)])) "ws"
              [("@odata.count", PInt 0)])
    as [Hworkspaces Hdatasets]; [reflexivity |].
  split; [apply Hworkspaces | apply Hdatasets]; reflexivity.
Defined.

(** ** Further properties of the operations *)

Lemma mapM_raw_to_refresh_details_dicts (raws : list (list (string * pyval))) :
  forallb stringifies raws = true ->
  mapM raw_to_refresh_details (List.map PDict raws) = Ok (List.map normalized raws).
Proof.
  induction raws as [| raw raws IH]; [reflexivity |].
  cbn [forallb]. intros [Hraw Hraws]%andb_prop.
  cbn [List.map mapM]. rewrite (raw_to_refresh_details_dict _ Hraw), (IH Hraws).
  reflexivity.
Qed.

Lemma get_refresh_history_dicts run d g response raws :
  run (refreshes_request d g) = Ok (PDict response) ->
  dict_lookup "value" response = Some (PList (List.map PDict raws)) ->
  forallb stringifies raws = true ->
  get_refresh_history run d g = Ok (List.map normalized raws).
Proof.
  intros Hrun Hvalue Hraws. unfold get_refresh_history, get, get_default.
  rewrite Hrun. cbn. rewrite Hvalue. cbn.
  by rewrite mapM_raw_to_refresh_details_dicts.
Qed.

Lemma get_refresh_details_dicts run d g rid response raws :
  run (refreshes_request d g) = Ok (PDict response) ->
  dict_lookup "value" response = Some (PList (List.map PDict raws)) ->
  forallb stringifies raws = true ->
  get_refresh_details_by_refresh_id run d g rid
  = match find_refresh rid raws with
    | Some raw => Ok (normalized raw)
    | None => Raise (refresh_error rid)
    end.
Proof.
  intros Hrun Hvalue Hraws.
  pose proof (get_refresh_history_dicts run d g _ _ Hrun Hvalue Hraws) as Hh.
  clear Hraws.
  assert (Hids : Forall2 (fun r v => get r REQUEST_ID = Ok v) (List.map normalized raws)
                   (List.map (fun raw => PStr (field_text raw "requestId")) raws)).
  { clear. induction raws; cbn; by constructor. }
  rewrite (get_refresh_details_unfold run _ _ rid _ _ Hh Hids).
  destruct raws as [| raw0 raws0]; [reflexivity |].
  change (match List.map normalized (raw0 :: raws0) with
          | [] => _ | _ :: _ => ?body end) with body.
  clear. generalize (raw0 :: raws0). intros raws. unfold find_refresh.
  induction raws as [| raw raws IH]; [reflexivity |].
  cbn [List.map index eq_str List.find].
  destruct (String.eqb rid (field_text raw "requestId")); [reflexivity |].
  rewrite <- IH.
  destruct (index rid (List.map (fun raw => PStr (field_text raw "requestId")) raws));
    reflexivity.
Qed.

(** X1: when the response lists mappings under ["value"] and the three
    values of each stringify, [get_refresh_history] returns one record per
    mapping, in the order of the response, each the normalisation of its
    mapping. *)
Theorem get_refresh_history_of_mappings
    (run : request -> result pyval) (dataset_id group_id : string)
    (response : list (string * pyval)) (raws : list (list (string * pyval))) :
  run (refreshes_request dataset_id group_id) = Ok (PDict response) ->
  dict_lookup "value" response = Some (PList (List.map PDict raws)) ->
  forallb stringifies raws = true ->
  exists history,
    get_refresh_history run dataset_id group_id = Ok history
    /\ length history = length raws
    /\ forall i raw, raws !! i = Some raw ->
         history !! i = Some (normalized raw)
         /\ raw_to_refresh_details (PDict raw) = Ok (normalized raw).
Proof.
  intros Hrun Hvalue Hraws. exists (List.map normalized raws). split_and!.
  - by apply (get_refresh_history_dicts run _ _ response).
  - apply length_map.
  - intros i raw Hi. split.
    + change (List.map normalized raws) with (normalized <$> raws).
      by rewrite list_lookup_fmap, Hi.
    + apply raw_to_refresh_details_dict.
      rewrite forallb_forall in Hraws. apply Hraws.
      apply list_elem_of_In. by eapply list_elem_of_lookup_2.
Qed.

Lemma get_refresh_history_of_mappings_witness :
  exists history,
    get_refresh_history (answering sample_refreshes) "ds" "ws" = Ok history
    /\ length history = length sample_raws
    /\ forall i raw, sample_raws !! i = Some raw ->
         history !! i = Some (normalized raw)
         /\ raw_to_refresh_details (PDict raw) = Ok (normalized raw).
Proof.
  apply (get_refresh_history_of_mappings (answering sample_refreshes) "ds" "ws"
           [("value", PList (List.map PDict sample_raws))] sample_raws);
    reflexivity.
Defined.

(** X2: looked up through the executor's response (mappings whose three
    values stringify), [get_refresh_details_by_refresh_id] returns the
    normalisation of the first raw record whose stringified ["requestId"]
    is [refresh_id], and raises the error naming [refresh_id] when there is
    none. *)
Theorem get_refresh_details_by_refresh_id_of_response
    (run : request -> result pyval) (dataset_id group_id refresh_id : string)
    (response : list (string * pyval)) (raws : list (list (string * pyval))) :
  run (refreshes_request dataset_id group_id) = Ok (PDict response) ->
  dict_lookup "value" response = Some (PList (List.map PDict raws)) ->
  forallb stringifies raws = true ->
  get_refresh_details_by_refresh_id run dataset_id group_id refresh_id
  = match List.find (fun raw => String.eqb refresh_id (field_text raw "requestId")) raws with
    | Some raw => Ok (normalized raw)
    | None =>
        Raise (Airflow PowerBIDatasetRefreshException
                 ("Unable to fetch the details of dataset refresh with Request Id: "
                  ++ refresh_id))
    end.
Proof. apply get_refresh_details_dicts. Qed.

Lemma get_refresh_details_by_refresh_id_of_response_witness :
  get_refresh_details_by_refresh_id (answering sample_refreshes) "ds" "ws" "a"
  = Ok (PDict [("request_id", PStr "a"); ("status", PStr "Completed");
               ("error", PStr "None")]).
Proof.
  apply (get_refresh_details_by_refresh_id_of_response
           (answering sample_refreshes) "ds" "ws" "a"
           [("value", PList (List.map PDict sample_raws))] sample_raws);
    reflexivity.
Defined.

(** X3: a raw record without ["requestId"] gets the request id ["None"]:
    when the first record of the response has no ["requestId"] (and the
    values of all records stringify), looking up the refresh id ["None"]
    returns that record. *)
Theorem get_refresh_details_by_refresh_id_of_missing_id
    (run : request -> result pyval) (dataset_id group_id : string)
    (response : list (string * pyval))
    (raw : list (string * pyval)) (rest : list (list (string * pyval))) :
  run (refreshes_request dataset_id group_id) = Ok (PDict response) ->
  dict_lookup "value" response = Some (PList (List.map PDict (raw :: rest))) ->
  forallb stringifies (raw :: rest) = true ->
  dict_lookup "requestId" raw = None ->
  get_refresh_details_by_refresh_id run dataset_id group_id "None" = Ok (normalized raw)
  /\ get (normalized raw) "request_id" = Ok (PStr "None").
Proof.
  intros Hrun Hvalue Hraws Hid.
  rewrite (get_refresh_details_dicts run _ _ "None" _ _ Hrun Hvalue Hraws).
  unfold find_refresh. cbn [List.find].
  assert (Htext : field_text raw "requestId" = "None").
  { unfold field_text, field_str. by rewrite Hid. }
  rewrite Htext. cbn. split; [reflexivity |]. by rewrite Htext.
Qed.

Lemma get_refresh_details_by_refresh_id_of_missing_id_witness :
  get_refresh_details_by_refresh_id
    (answering (PDict [("value", PList [PDict [("status", PStr "Failed")]])]))
    "ds" "ws" "None"
  = Ok (normalized [("status", PStr "Failed")])
  /\ get (normalized [("status", PStr "Failed")]) "request_id" = Ok (PStr "None").
Proof.
  apply (get_refresh_details_by_refresh_id_of_missing_id
           (answering (PDict [("value", PList [PDict [("status", PStr "Failed")]])]))
           "ds" "ws"
           [("value", PList [PDict [("status", PStr "Failed")]])]
           [("status", PStr "Failed")] []);
    reflexivity.
Defined.

(** X4: [get_workspace_list] and [get_dataset_list] re-raise an executor
    error that is an [AirflowException] as [PowerBIWorkspaceListException]
    resp. [PowerBIDatasetListException] with their fixed messages; an error
    of any other class propagates unchanged. *)
Theorem listing_error_translation
    (run : request -> result pyval) (group_id : string) (e : exn) :
  (run workspaces_request = Raise e ->
   get_workspace_list run
   = Raise (if is_airflow_exception e
            then Airflow PowerBIWorkspaceListException "Failed to get workspace ID list."
            else e))
  /\ (run (datasets_request group_id) = Raise e ->
      get_dataset_list run group_id
      = Raise (if is_airflow_exception e
               then Airflow PowerBIDatasetListException "Failed to get dataset ID list."
               else e)).
Proof.
  unfold get_workspace_list, get_dataset_list.
  split; intros ->; cbn; by destruct (is_airflow_exception e).
Qed.

(** X5: no [AirflowException] other than the operation's own error with its
    fixed message leaves [get_refresh_history], [trigger_dataset_refresh],
    [get_workspace_list] or [get_dataset_list]. *)
Theorem wrapped_operations_raise_own_error
    (run : request -> result pyval) (dataset_id group_id : string)
    (request_body : option pyval) (e : exn) :
  is_airflow_exception e = true ->
  (get_refresh_history run dataset_id group_id = Raise e ->
   e = Airflow PowerBIDatasetRefreshException "Failed to retrieve refresh history")
  /\ (trigger_dataset_refresh run dataset_id group_id request_body = Raise e ->
      e = Airflow PowerBIDatasetRefreshException "Failed to trigger dataset refresh.")
  /\ (get_workspace_list run = Raise e ->
      e = Airflow PowerBIWorkspaceListException "Failed to get workspace ID list.")
  /\ (get_dataset_list run group_id = Raise e ->
      e = Airflow PowerBIDatasetListException "Failed to get dataset ID list.").
Proof.
  intros He.
  unfold get_refresh_history, trigger_dataset_refresh, get_workspace_list, get_dataset_list.
  split_and!; intros [-> | Hne]%try_except_airflow_Raise; try reflexivity; congruence.
Qed.

Lemma wrapped_operations_raise_own_error_witness :
  get_refresh_history (failing (Airflow (AirflowSubclass "AirflowNotFoundException") "404"))
    "ds" "ws"
  = Raise (Airflow PowerBIDatasetRefreshException "Failed to retrieve refresh history")
  /\ Airflow PowerBIDatasetRefreshException "Failed to retrieve refresh history"
     = Airflow PowerBIDatasetRefreshException "Failed to retrieve refresh history".
Proof.
  split; [reflexivity |].
  apply (wrapped_operations_raise_own_error
           (failing (Airflow (AirflowSubclass "AirflowNotFoundException") "404"))
           "ds" "ws" None
           (Airflow PowerBIDatasetRefreshException "Failed to retrieve refresh history"));
    reflexivity.
Defined.

(** X6: an error of [get_refresh_details_by_refresh_id] is the error of the
    history fetch or the error naming [refresh_id]; indexing the history
    never fails. *)
Theorem get_refresh_details_by_refresh_id_errors
    (run : request -> result pyval) (dataset_id group_id refresh_id : string) (e : exn) :
  get_refresh_details_by_refresh_id run dataset_id group_id refresh_id = Raise e ->
  get_refresh_history run dataset_id group_id = Raise e
  \/ e = Airflow PowerBIDatasetRefreshException
           ("Unable to fetch the details of dataset refresh with Request Id: "
            ++ refresh_id).
Proof.
  destruct (get_refresh_history run dataset_id group_id) as [history | e'] eqn:Hh.
  - destruct (request_ids_of_records _ (get_refresh_history_records run _ _ _ Hh))
      as [ids Hids].
    rewrite (get_refresh_details_unfold run _ _ refresh_id _ _ Hh Hids).
    fold (refresh_error refresh_id).
    destruct history as [| r0 rest]; [intros [= <-]; by right |].
    destruct (index refresh_id ids) as [i |] eqn:Hidx; [| intros [= <-]; by right].
    destruct (index_Some _ _ _ _ Hids Hidx) as (r & -> & _). discriminate.
  - unfold get_refresh_details_by_refresh_id. rewrite Hh. cbn. intros [= <-]. by left.
Qed.

Lemma get_refresh_details_by_refresh_id_errors_witness :
  get_refresh_history (failing (Foreign "TimeoutError" "timed out")) "ds" "ws"
  = Raise (Foreign "TimeoutError" "timed out")
  \/ Foreign "TimeoutError" "timed out"
     = Airflow PowerBIDatasetRefreshException
         "Unable to fetch the details of dataset refresh with Request Id: r1".
Proof.
  apply (get_refresh_details_by_refresh_id_errors
           (failing (Foreign "TimeoutError" "timed out")) "ds" "ws" "r1").
  reflexivity.
Defined.

(** X7: a response that is not a mapping ([None], a list, a str, ...)
    makes the four operations that read it raise [AttributeError], which
    is not translated. *)
Theorem response_not_a_mapping
    (run : request -> result pyval) (dataset_id group_id : string)
    (request_body : option pyval) (response : pyval) :
  is_mapping response = false ->
  (run (refreshes_request dataset_id group_id) = Ok response ->
   get_refresh_history run dataset_id group_id = Raise (Builtin AttributeError))
  /\ (run (trigger_request dataset_id group_id request_body) = Ok response ->
      trigger_dataset_refresh run dataset_id group_id request_body
      = Raise (Builtin AttributeError))
  /\ (run workspaces_request = Ok response ->
      get_workspace_list run = Raise (Builtin AttributeError))
  /\ (run (datasets_request group_id) = Ok response ->
      get_dataset_list run group_id = Raise (Builtin AttributeError)).
Proof.
  intros Hm.
  unfold get_refresh_history, trigger_dataset_refresh, get_workspace_list, get_dataset_list.
  split_and!; intros ->; by destruct response.
Qed.

Lemma response_not_a_mapping_witness :
  trigger_dataset_refresh (answering PNone) "ds" "ws" None = Raise (Builtin AttributeError).
Proof.
  apply (response_not_a_mapping (answering PNone) "ds" "ws" None PNone); reflexivity.
Defined.

Lemma mapM_raw_to_refresh_details_not_mapping (items : list pyval) (x : pyval) :
  x ∈ items -> is_mapping x = false ->
  (forall raw, PDict raw ∈ items -> stringifies raw = true) ->
  mapM raw_to_refresh_details items = Raise (Builtin AttributeError).
Proof.
  intros Hin Hx Hitems.
  induction items as [| y items IH]; [by apply elem_of_nil in Hin |].
  cbn [mapM]. destruct (is_mapping y) eqn:Hy.
  - destruct y as [| | | | | raw]; try discriminate.
    rewrite raw_to_refresh_details_dict by (apply Hitems; by left). cbn [bind].
    apply elem_of_cons in Hin as [-> | Hin]; [discriminate |].
    rewrite IH; [done | done |]. intros raw' Hraw'. apply Hitems. by right.
  - by rewrite (raw_to_refresh_details_not_mapping y Hy).
Qed.

Lemma ids_Raise (xs : list pyval) (e : exn) : ids xs = Raise e -> e = Builtin TypeError.
Proof.
  induction xs as [| x xs IH]; cbn [ids]; [discriminate |].
  destruct x as [| b | z | s | items | items]; cbn; try (by intros [= <-]).
  - destruct (str_contains "id" s); cbn; [by intros [= <-] | exact IH].
  - destruct (existsb (eq_str "id") items); cbn; [by intros [= <-] | exact IH].
  - destruct (dict_lookup "id" items); cbn; [| exact IH].
    destruct (ids xs); cbn; [discriminate |]. intros [= <-]. by apply IH.
Qed.

Lemma ids_scalar (xs : list pyval) (x : pyval) :
  x ∈ xs -> is_scalar x = true -> ids xs = Raise (Builtin TypeError).
Proof.
  intros Hin Hx. induction xs as [| y xs IH]; [by apply elem_of_nil in Hin |].
  apply elem_of_cons in Hin as [<- | Hin].
  - by destruct x.
  - specialize (IH Hin).
    destruct (ids (y :: xs)) as [vs | e] eqn:Hy; [| by rewrite (ids_Raise _ _ Hy)].
    exfalso. revert Hy. cbn [ids].
    destruct (contains "id" y) as [[] |]; cbn; [| by rewrite IH | done].
    destruct (getitem y "id"); cbn; [by rewrite IH | done].
Qed.

(** X8: [get_refresh_history] has no default for ["value"]: when the
    response mapping lacks the key, or binds it to [None], iterating it
    raises [TypeError], which is not translated. *)
Theorem get_refresh_history_without_value
    (run : request -> result pyval) (dataset_id group_id : string)
    (response : list (string * pyval)) :
  run (refreshes_request dataset_id group_id) = Ok (PDict response) ->
  dict_lookup "value" response = None \/ dict_lookup "value" response = Some PNone ->
  get_refresh_history run dataset_id group_id = Raise (Builtin TypeError).
Proof.
  intros Hrun Hvalue. unfold get_refresh_history, get, get_default.
  rewrite Hrun. cbn. by destruct Hvalue as [-> | ->].
Qed.

Lemma get_refresh_history_without_value_witness :
  get_refresh_history (answering (PDict [("@odata.context", PStr "refreshes")])) "ds" "ws"
  = Raise (Builtin TypeError).
Proof.
  apply (get_refresh_history_without_value
           (answering (PDict [("@odata.context", PStr "refreshes")])) "ds" "ws"
           [("@odata.context", PStr "refreshes")]);
    [reflexivity | left; reflexivity].
Defined.

(** X9: the default of [get_workspace_list] and [get_dataset_list] covers
    only an absent key: a response that binds ["value"] to [None] makes
    both raise [TypeError]. *)
Theorem id_lists_value_none
    (run : request -> result pyval) (group_id : string)
    (response : list (string * pyval)) :
  dict_lookup "value" response = Some PNone ->
  (run workspaces_request = Ok (PDict response) ->
   get_workspace_list run = Raise (Builtin TypeError))
  /\ (run (datasets_request group_id) = Ok (PDict response) ->
      get_dataset_list run group_id = Raise (Builtin TypeError)).
Proof.
  intros Hvalue. unfold get_workspace_list, get_dataset_list, get_default.
  split; intros ->; cbn; by rewrite Hvalue.
Qed.

Lemma id_lists_value_none_witness :
  get_workspace_list (answering (PDict [("value", PNone)])) = Raise (Builtin TypeError)
  /\ get_dataset_list (answering (PDict [("value", PNone)])) "ws" = Raise (Builtin TypeError).
Proof.
  destruct (id_lists_value_none (answering (PDict [("value", PNone)])) "ws"
              [("value", PNone)])
    as [Hworkspaces Hdatasets]; [reflexivity |].
  split; [apply Hworkspaces | apply Hdatasets]; reflexivity.
Defined.

(** X10: one element of the history list that is not a mapping makes
    [get_refresh_history] raise [AttributeError], wherever it stands in the
    list, the values of the mappings of the list stringifying. *)
Theorem get_refresh_history_element_not_a_mapping
    (run : request -> result pyval) (dataset_id group_id : string)
    (response : list (string * pyval)) (items : list pyval) (x : pyval) :
  run (refreshes_request dataset_id group_id) = Ok (PDict response) ->
  dict_lookup "value" response = Some (PList items) ->
  x ∈ items -> is_mapping x = false ->
  (forall raw, PDict raw ∈ items -> stringifies raw = true) ->
  get_refresh_history run dataset_id group_id = Raise (Builtin AttributeError).
Proof.
  intros Hrun Hvalue Hin Hx Hitems. unfold get_refresh_history, get, get_default.
  rewrite Hrun. cbn. rewrite Hvalue. cbn.
  by rewrite (mapM_raw_to_refresh_details_not_mapping items x).
Qed.

Lemma get_refresh_history_element_not_a_mapping_witness :
  get_refresh_history
    (answering (PDict [("value", PList [PDict [("requestId", PStr "a")]; PNone])]))
    "ds" "ws"
  = Raise (Builtin AttributeError).
Proof.
  apply (get_refresh_history_element_not_a_mapping
           (answering (PDict [("value", PList [PDict [("requestId", PStr "a")]; PNone])]))
           "ds" "ws"
           [("value", PList [PDict [("requestId", PStr "a")]; PNone])]
           [PDict [("requestId", PStr "a")]; PNone] PNone);
    [reflexivity | reflexivity | | reflexivity |].
  - apply elem_of_cons. right. apply elem_of_cons. left. reflexivity.
  - intros raw Hraw.
    apply elem_of_cons in Hraw as [[= ->] | Hraw]; [reflexivity |].
    apply elem_of_cons in Hraw as [Hraw | Hraw]; [discriminate |].
    apply elem_of_nil in Hraw. destruct Hraw.
Defined.

(** X11: an element of the listing that is [None], a [bool] or an [int] is
    not skipped: wherever it stands, [get_workspace_list] and
    [get_dataset_list] raise [TypeError]. *)
Theorem id_lists_scalar_element
    (run : request -> result pyval) (group_id : string)
    (response : list (string * pyval)) (items : list pyval) (x : pyval) :
  dict_lookup "value" response = Some (PList items) ->
  x ∈ items -> is_scalar x = true ->
  (run workspaces_request = Ok (PDict response) ->
   get_workspace_list run = Raise (Builtin TypeError))
  /\ (run (datasets_request group_id) = Ok (PDict response) ->
      get_dataset_list run group_id = Raise (Builtin TypeError)).
Proof.
  intros Hvalue Hin Hx. unfold get_workspace_list, get_dataset_list, get_default.
  split; intros ->; cbn; rewrite Hvalue; cbn; by rewrite (ids_scalar items x).
Qed.

Lemma id_lists_scalar_element_witness :
  get_workspace_list (answering (PDict [("value", PList [PDict [("id", PStr "w1")]; PNone])]))
  = Raise (Builtin TypeError)
  /\ get_dataset_list
       (answering (PDict [("value", PList [PDict [("id", PStr "w1")]; PNone])])) "ws"
     = Raise (Builtin TypeError).
Proof.
  destruct (id_lists_scalar_element
              (answering (PDict [("value", PList [PDict [("id", PStr "w1")]; PNone])])) "ws"
              [("value", PList [PDict [("id", PStr "w1")]; PNone])]
              [PDict [("id", PStr "w1")]; PNone] PNone)
    as [Hworkspaces Hdatasets]; [reflexivity | | reflexivity |].
  - apply elem_of_cons. right. apply elem_of_cons. left. reflexivity.
  - split; [apply Hworkspaces | apply Hdatasets]; reflexivity.
Defined.

(** X12: when the response mapping has no ["requestid"] key (the key is
    lower-case), [trigger_dataset_refresh] returns [None] and raises
    nothing. *)
Theorem trigger_dataset_refresh_without_request_id
    (run : request -> result pyval) (dataset_id group_id : string)
    (request_body : option pyval) (response : list (string * pyval)) :
  run (trigger_request dataset_id group_id request_body) = Ok (PDict response) ->
  dict_lookup "requestid" response = None ->
  trigger_dataset_refresh run dataset_id group_id request_body = Ok PNone.
Proof.
  intros Hrun Hid. unfold trigger_dataset_refresh, get, get_default.
  rewrite Hrun. cbn. by rewrite Hid.
Qed.

Lemma trigger_dataset_refresh_without_request_id_witness :
  trigger_dataset_refresh (answering (PDict [("requestId", PStr "abc123")])) "ds" "ws" None
  = Ok PNone.
Proof.
  apply (trigger_dataset_refresh_without_request_id
           (answering (PDict [("requestId", PStr "abc123")])) "ds" "ws" None
           [("requestId", PStr "abc123")]);
    reflexivity.
Defined.

(** X13: normalisation keeps the classification of a status: for a raw
    record whose three values stringify, the normalised status is in
    [TERMINAL_STATUSES] (resp. [FAILURE_STATUSES]) exactly when the
    stringified raw status is; a raw ["Unknown"] becomes ["In Progress"],
    which is in neither set. *)
Theorem normalized_status_classification (raw : list (string * pyval)) :
  stringifies raw = true ->
  exists request_id status error : string,
    raw_to_refresh_details (PDict raw)
    = Ok (PDict [("request_id", PStr request_id); ("status", PStr status);
                 ("error", PStr error)])
    /\ (status ∈ TERMINAL_STATUSES <-> field_text raw "status" ∈ TERMINAL_STATUSES)
    /\ (status ∈ FAILURE_STATUSES <-> field_text raw "status" ∈ FAILURE_STATUSES)
    /\ (field_text raw "status" = "Unknown" ->
        status = "In Progress"
        /\ (status ∉ TERMINAL_STATUSES) /\ (status ∉ FAILURE_STATUSES)).
Proof.
  intros Hraw. do 3 eexists. split; [by apply raw_to_refresh_details_dict |].
  unfold TERMINAL_STATUSES, FAILURE_STATUSES, FAILED, COMPLETED, DISABLED.
  destruct (String.eqb_spec (field_text raw "status") "Unknown") as [-> | Hne].
  - split_and!; [set_solver | set_solver |].
    intros _. split_and!; [reflexivity | set_solver | set_solver].
  - split_and!; [done | done | done].
Qed.

Lemma normalized_status_classification_witness :
  exists request_id status error : string,
    raw_to_refresh_details (PDict [("requestId", PInt 7); ("status", PStr "Unknown")])
    = Ok (PDict [("request_id", PStr request_id); ("status", PStr status);
                 ("error", PStr error)])
    /\ (status ∈ TERMINAL_STATUSES
        <-> field_text [("requestId", PInt 7); ("status", PStr "Unknown")] "status"
            ∈ TERMINAL_STATUSES)
    /\ (status ∈ FAILURE_STATUSES
        <-> field_text [("requestId", PInt 7); ("status", PStr "Unknown")] "status"
            ∈ FAILURE_STATUSES)
    /\ (field_text [("requestId", PInt 7); ("status", PStr "Unknown")] "status" = "Unknown" ->
        status = "In Progress"
        /\ (status ∉ TERMINAL_STATUSES) /\ (status ∉ FAILURE_STATUSES)).
Proof.
  apply (normalized_status_classification
           [("requestId", PInt 7); ("status", PStr "Unknown")]).
  reflexivity.
Defined.

(** X14: every record of a fetched history is a dict of exactly the keys
    [request_id], [status] and [error], each bound to a str, and its status
    is never ["Unknown"]. *)
Theorem get_refresh_history_record_shape
    (run : request -> result pyval) (dataset_id group_id : string)
    (history : list pyval) (r : pyval) :
  get_refresh_history run dataset_id group_id = Ok history ->
  r ∈ history ->
  exists request_id status error : string,
    r = PDict [("request_id", PStr request_id); ("status", PStr status);
               ("error", PStr error)]
    /\ status <> "Unknown".
Proof.
  unfold get_refresh_history. intros H%try_except_airflow_Ok Hin.
  destruct (run _) as [response | ?]; [cbn in H | done].
  destruct (get response "value") as [histories | ?]; [cbn in H | done].
  destruct (iter histories) as [items | ?]; [cbn in H | done].
  apply mapM_Ok_Forall2 in H.
  induction H as [| x y xs ys Hxy _ IH]; [by apply elem_of_nil in Hin |].
  apply elem_of_cons in Hin as [-> | Hin]; [| by apply IH].
  apply raw_to_refresh_details_record in Hxy as (i & s & e & -> & Hs). eauto.
Qed.

Lemma get_refresh_history_record_shape_witness :
  exists request_id status error : string,
    normalized [("requestId", PStr "b"); ("status", PStr "Unknown");
                ("serviceExceptionJson", PNone)]
    = PDict [("request_id", PStr request_id); ("status", PStr status);
             ("error", PStr error)]
    /\ status <> "Unknown".
Proof.
  apply (get_refresh_history_record_shape (answering sample_refreshes) "ds" "ws"
           (List.map normalized sample_raws)).
  - reflexivity.
  - apply elem_of_cons. right. apply elem_of_cons. left. reflexivity.
Defined.

(** X15: [raw_to_refresh_details] is not to be applied to its own result:
    the record it builds has the keys [request_id] and [error], not
    ["requestId"] and ["serviceExceptionJson"], so normalising it again
    keeps the status and turns the request id and the error into
    ["None"]. *)
Theorem raw_to_refresh_details_twice (request_id status error : string) :
  status <> "Unknown" ->
  raw_to_refresh_details
    (PDict [("request_id", PStr request_id); ("status", PStr status);
            ("error", PStr error)])
  = Ok (PDict [("request_id", PStr "None"); ("status", PStr status);
               ("error", PStr "None")]).
Proof.
  intros Hne. rewrite raw_to_refresh_details_bind.
  cbn. apply String.eqb_neq in Hne. by rewrite Hne.
Qed.

Lemma raw_to_refresh_details_twice_witness :
  raw_to_refresh_details
    (PDict [("request_id", PStr "r1"); ("status", PStr "Completed");
            ("error", PStr "None")])
  = Ok (PDict [("request_id", PStr "None"); ("status", PStr "Completed");
               ("error", PStr "None")]).
Proof.
  apply (raw_to_refresh_details_twice "r1" "Completed" "None"). discriminate.
Defined.
